(** * The feature-flag route guard of ngx-flagr

    A shallow embedding of [canMatchFeatureFlag]
    (projects/core/src/feature-flag.can-match.guard.ts) and the properties
    the specification states about it.

    The guard is a TypeScript function run by the Angular router.  It reads
    the route's [data] bag, may log a warning, may call the feature-flag
    service and the router's [parseUrl], and either returns a decision or
    throws.  The embedding keeps these effects visible: a run of the guard
    yields the list of effects it performed, in order, together with the
    value it returned or the error it threw. *)

From Stdlib Require Import ZArith.
From stdpp Require Import base option list gmap strings pretty.

Local Open Scope string_scope.

(** How an evaluation leaves: with a value, or with a thrown error, kept
    by its message. *)
Inductive outcome (A : Type) : Type :=
  | Returned (a : A)
  | Thrown (message : string).
Arguments Returned {A} a.
Arguments Thrown {A} message.

(** ** JavaScript values *)

(** A [Promise], by the state it settles in. *)
Inductive promise (A : Type) : Type :=
  | Pending
  | Fulfilled (result : A)
  | Rejected (reason : A).
Arguments Pending {A}.
Arguments Fulfilled {A} result.
Arguments Rejected {A} reason.

(** How an [Observable] ends after its emissions. *)
Inductive closing (A : Type) : Type :=
  | Completes
  | Errors (reason : A)
  | StaysOpen.
Arguments Completes {A}.
Arguments Errors {A} reason.
Arguments StaysOpen {A}.

(** An [Observable], by what a subscriber receives from it. *)
Record observable (A : Type) : Type := Observable {
  emissions : list A;
  ending : closing A
}.
Arguments Observable {A} emissions ending.
Arguments emissions {A} o.
Arguments ending {A} o.

(** The router's [UrlTree]: the canonical form of a navigation target. *)
Record UrlTree : Type := { canonical : string }.

(** [Number.MAX_SAFE_INTEGER], 2^53 - 1: up to it every integer is a
    number of its own and prints as its decimal digits. *)
Definition MAX_SAFE_INTEGER : Z := 9007199254740991.

Definition is_safe_integer (n : Z) : bool :=
  (Z.abs n <=? MAX_SAFE_INTEGER)%Z.

Record safe_integer : Type := SafeInteger {
  integer : Z;
  integer_safe : is_safe_integer integer = true
}.

(** The values that route data and the flag service can hold.  Numbers are
    the safe integers and [NaN]: that covers both falsy numbers.  [VObject]
    is any other object, carried by what its string conversion gives: a
    text, or the error thrown by an object that has no usable [toString].
    [VSymbol] is a symbol, by its description. *)
#[warnings="-register-all"]
Inductive value : Type :=
  | VUndefined
  | VNull
  | VBoolean (b : bool)
  | VNumber (n : safe_integer)
  | VNaN
  | VString (s : string)
  | VUrlTree (u : UrlTree)
  | VPromise (p : promise value)
  | VObservable (o : observable value)
  | VObject (text : outcome string)
  | VSymbol (description : string).

(** [ToBoolean]: what [!x], [x || y] and [if (x)] test. *)
Definition truthy (v : value) : bool :=
  match v with
  | VUndefined | VNull | VNaN => false
  | VBoolean b => b
  | VNumber n => negb (integer n =? 0)%Z
  | VString s => negb (String.eqb s "")
  | VUrlTree _ | VPromise _ | VObservable _ | VObject _ | VSymbol _ => true
  end.

(** [a || b] *)
Definition js_or (a b : value) : value := if truthy a then a else b.

Definition symbol_conversion_message : string :=
  "Cannot convert a Symbol value to a string".

(** [ToString], as a template literal applies it to [${v}]: it throws a
    [TypeError] on a symbol and on an object that cannot be converted. *)
Definition template_string (v : value) : outcome string :=
  match v with
  | VUndefined => Returned "undefined"
  | VNull => Returned "null"
  | VBoolean b => Returned (if b then "true" else "false")
  | VNumber n => Returned (pretty (integer n))
  | VNaN => Returned "NaN"
  | VString s => Returned s
  | VUrlTree u => Returned (canonical u)
  | VPromise _ => Returned "[object Promise]"
  | VObservable _ => Returned "[object Object]"
  | VObject text => text
  | VSymbol _ => Thrown symbol_conversion_message
  end.

(** An optional property such as [route.path], read as a value. *)
Definition optional_string (o : option string) : value :=
  match o with
  | Some s => VString s
  | None => VUndefined
  end.

(** The synchronicity class of a decision: a [Promise], an [Observable],
    or a value that is there at once. *)
Inductive shape : Type := Immediate | Deferred | Stream.

Definition shape_of (v : value) : shape :=
  match v with
  | VPromise _ => Deferred
  | VObservable _ => Stream
  | _ => Immediate
  end.

Definition is_boolean (v : value) : bool :=
  match v with VBoolean _ => true | _ => false end.

Definition is_promise (v : value) : bool :=
  match v with VPromise _ => true | _ => false end.

Definition is_observable (v : value) : bool :=
  match v with VObservable _ => true | _ => false end.

(** [p.then(f)] for a callback that does not throw; a promise returned by
    the callback is adopted. *)
Definition promise_then (p : promise value) (f : value -> value)
  : promise value :=
  match p with
  | Pending => Pending
  | Fulfilled result =>
      match f result with
      | VPromise q => q
      | w => Fulfilled w
      end
  | Rejected reason => Rejected reason
  end.

(** [o.pipe(map(f))] *)
Definition observable_map (o : observable value) (f : value -> value)
  : observable value :=
  Observable (f <$> emissions o) (ending o).

(** What a caller that awaits a decision receives, and in which position:
    an immediate value is received at once, a fulfilled promise delivers
    its result, an observable delivers its [i]-th emission. *)
Definition delivery (d : value) (i : nat) : option value :=
  match d with
  | VPromise p =>
      match p, i with
      | Fulfilled result, O => Some result
      | _, _ => None
      end
  | VObservable o => emissions o !! i
  | v =>
      match i with
      | O => Some v
      | S _ => None
      end
  end.

(** ** Routes, configuration and the ambient context *)

Record Route : Type := {
  path : option string;
  data : option (gmap string value)
}.

(** [route.data?.[key]] *)
Definition data_get (route : Route) (key : string) : value :=
  match data route with
  | Some bag => default VUndefined (bag !! key)
  | None => VUndefined
  end.

Record RoutingKeys : Type := {
  keys_featureFlag : string;
  keys_redirectToIfDisabled : string
}.

Record Routing : Type := {
  keys : RoutingKeys;
  validIfNone : bool;
  redirectToIfDisabled : option string
}.

Record Configuration : Type := { routing : Routing }.

Record FeatureFlagService : Type := { isEnabled : value -> value }.

Record Router : Type := { parseUrl : value -> UrlTree }.

(** What the guard's imports and its [inject] calls resolve to in one
    invocation.  [isFeatureFlag] comes from ./feature-flag and the three
    tokens from ./tokens and @angular/router. *)
Record Context : Type := {
  isDevMode : bool;
  isFeatureFlag : value -> bool;
  CONFIGURATION : Configuration;
  FEATURE_FLAG_SERVICE : FeatureFlagService;
  ROUTER : Router
}.

Definition with_isDevMode (mode : bool) (ctx : Context) : Context :=
  {| isDevMode := mode;
     isFeatureFlag := isFeatureFlag ctx;
     CONFIGURATION := CONFIGURATION ctx;
     FEATURE_FLAG_SERVICE := FEATURE_FLAG_SERVICE ctx;
     ROUTER := ROUTER ctx |}.

Definition with_validIfNone (b : bool) (ctx : Context) : Context :=
  {| isDevMode := isDevMode ctx;
     isFeatureFlag := isFeatureFlag ctx;
     CONFIGURATION :=
       {| routing :=
            {| keys := keys (routing (CONFIGURATION ctx));
               validIfNone := b;
               redirectToIfDisabled :=
                 redirectToIfDisabled (routing (CONFIGURATION ctx)) |} |};
     FEATURE_FLAG_SERVICE := FEATURE_FLAG_SERVICE ctx;
     ROUTER := ROUTER ctx |}.

(** ** Effects *)

Inductive event : Type :=
  | Warned (message : string)
  | AskedService (flag : value)
  | ParsedUrl (target : value).

(** A computation of the guard: the effects performed so far and how it
    left. *)
Definition Guard (A : Type) : Type := list event * outcome A.

Definition events {A} (run : Guard A) : list event := fst run.
Definition result {A} (run : Guard A) : outcome A := snd run.

Definition ret {A} (a : A) : Guard A := ([], Returned a).

Definition bind {A B} (m : Guard A) (f : A -> Guard B) : Guard B :=
  match m with
  | (done, Returned a) => ((done ++ events (f a))%list, result (f a))
  | (done, Thrown message) => (done, Thrown message)
  end.

Notation "x <- m ;; k" := (bind m (fun x => k))
  (at level 100, m at next level, right associativity).
Notation "m ;;; k" := (bind m (fun _ => k))
  (at level 100, right associativity).

Definition throw_Error {A} (message : string) : Guard A :=
  ([], Thrown message).

(** An evaluation without effects of its own, such as a conversion. *)
Definition evaluate {A} (o : outcome A) : Guard A := ([], o).

Definition console_warn (message : string) : Guard unit :=
  ([Warned message], Returned tt).

Definition call_isEnabled (service : FeatureFlagService) (flag : value)
  : Guard value :=
  ([AskedService flag], Returned (isEnabled service flag)).

Definition call_parseUrl (router : Router) (target : value)
  : Guard UrlTree :=
  ([ParsedUrl target], Returned (parseUrl router target)).

(** ** The guard *)

(** [${route.path}]: the path, or ["undefined"] for a route without
    one; this conversion cannot throw. *)
Definition path_text (route : Route) : string :=
  match path route with
  | Some s => s
  | None => "undefined"
  end.

Definition missing_flag_message (route : Route) : string :=
  "Route " +:+ path_text route
    +:+ " does not have a feature flag specified".

(** The template literal of line 46, once [${featureFlag}] has been
    converted to [text]. *)
Definition invalid_flag_message (route : Route) (text : string) : string :=
  "Route " +:+ path_text route
    +:+ " has an invalid feature flag: " +:+ text.

Definition unhandled_message : string :=
  "Unhandled return type of `FeatureFlagService#isEnabled`".

Definition canMatchFeatureFlag (ctx : Context) (route : Route)
  : Guard value :=
  let routing := routing (CONFIGURATION ctx) in
  let keys := keys routing in
  let featureFlag := data_get route (keys_featureFlag keys) in
  if negb (truthy featureFlag) then
    let validIfNone := validIfNone routing in
    (if isDevMode ctx && negb validIfNone
     then console_warn (missing_flag_message route)
     else ret tt) ;;;
    ret (VBoolean validIfNone)
  else if negb (isFeatureFlag ctx featureFlag) then
    text <- evaluate (template_string featureFlag) ;;
    throw_Error (invalid_flag_message route text)
  else
    isEnabled <- call_isEnabled (FEATURE_FLAG_SERVICE ctx) featureFlag ;;
    let redirectToIfDisabled :=
      js_or (data_get route (keys_redirectToIfDisabled keys))
            (optional_string (redirectToIfDisabled routing)) in
    if negb (truthy redirectToIfDisabled) then
      ret isEnabled
    else
      redirectTo <- call_parseUrl (ROUTER ctx) redirectToIfDisabled ;;
      let or_redirectTo := fun result => js_or result (VUrlTree redirectTo) in
      match isEnabled with
      | VBoolean _ => ret (or_redirectTo isEnabled)
      | VPromise p => ret (VPromise (promise_then p or_redirectTo))
      | VObservable o => ret (VObservable (observable_map o or_redirectTo))
      | _ => throw_Error unhandled_message
      end.

(** ** Reading a run *)

(** The flag, the two redirect values and the service's answer that one
    invocation works with. *)
Definition flag_of (ctx : Context) (route : Route) : value :=
  data_get route (keys_featureFlag (keys (routing (CONFIGURATION ctx)))).

Definition route_redirect (ctx : Context) (route : Route) : value :=
  data_get route
    (keys_redirectToIfDisabled (keys (routing (CONFIGURATION ctx)))).

Definition default_redirect (ctx : Context) : value :=
  optional_string (redirectToIfDisabled (routing (CONFIGURATION ctx))).

(** The redirect target in the words of the specification: the route's own
    value when it is present and truthy, else the configured default. *)
Definition redirect_target (ctx : Context) (route : Route) : value :=
  if truthy (route_redirect ctx route)
  then route_redirect ctx route
  else default_redirect ctx.

Definition answer (ctx : Context) (route : Route) : value :=
  isEnabled (FEATURE_FLAG_SERVICE ctx) (flag_of ctx route).

(** The answers the guard knows how to combine with a redirect. *)
Definition handled (v : value) : bool :=
  is_boolean v || is_promise v || is_observable v.

(** The decision on a valid flag when a redirect target is configured:
    [isEnabled || redirectTo], now, on fulfilment or on each emission. *)
Definition redirected (isEnabled : value) (redirectTo : UrlTree)
  : outcome value :=
  match isEnabled with
  | VBoolean b => Returned (js_or (VBoolean b) (VUrlTree redirectTo))
  | VPromise p =>
      Returned
        (VPromise (promise_then p (fun r => js_or r (VUrlTree redirectTo))))
  | VObservable o =>
      Returned
        (VObservable
           (observable_map o (fun r => js_or r (VUrlTree redirectTo))))
  | _ => Thrown unhandled_message
  end.

(** Projections of a trace on one kind of effect. *)
Fixpoint warnings (trace : list event) : list string :=
  match trace with
  | [] => []
  | Warned message :: rest => message :: warnings rest
  | _ :: rest => warnings rest
  end.

Fixpoint service_calls (trace : list event) : list value :=
  match trace with
  | [] => []
  | AskedService flag :: rest => flag :: service_calls rest
  | _ :: rest => service_calls rest
  end.

Fixpoint parsed_targets (trace : list event) : list value :=
  match trace with
  | [] => []
  | ParsedUrl target :: rest => target :: parsed_targets rest
  | _ :: rest => parsed_targets rest
  end.

(** No warning comes after a call of the flag service. *)
Fixpoint log_before_service (trace : list event) : bool :=
  match trace with
  | [] => true
  | AskedService _ :: rest =>
      match warnings rest with
      | [] => log_before_service rest
      | _ :: _ => false
      end
  | _ :: rest => log_before_service rest
  end.

(** [s.includes(sub)] *)
Fixpoint includes (s sub : string) : bool :=
  String.prefix sub s
  || match s with
     | EmptyString => false
     | String _ rest => includes rest sub
     end.

(** The error the guard leaves with on a flag value that is not a feature
    flag: the error of line 45 when the value converts to a string, the
    conversion's own error when it does not. *)
Definition invalid_flag_error (route : Route) (featureFlag : value)
  : string :=
  match template_string featureFlag with
  | Returned text => invalid_flag_message route text
  | Thrown message => message
  end.

(** A promise fulfilled with a promise: a state no JavaScript promise is
    ever in, since resolving with a promise adopts its state. *)
Definition fulfilled_with_promise (v : value) : bool :=
  match v with
  | VPromise (Fulfilled (VPromise _)) => true
  | _ => false
  end.

(** ** Sample configurations and routes *)

Module Sample.

(** A flag set with the single flag ["beta"]. *)
Definition known_flag (v : value) : bool :=
  match v with
  | VString s => String.eqb s "beta"
  | _ => false
  end.

Definition url (target : value) : UrlTree :=
  {| canonical := match template_string target with
                  | Returned text => text
                  | Thrown _ => "/"
                  end |}.

(** Keys ["flag"] and ["redirect"], routes without a flag rejected. *)
Definition context (mode : bool) (fallback : option string)
    (reply : value) : Context :=
  {| isDevMode := mode;
     isFeatureFlag := known_flag;
     CONFIGURATION :=
       {| routing :=
            {| keys := {| keys_featureFlag := "flag";
                          keys_redirectToIfDisabled := "redirect" |};
               validIfNone := false;
               redirectToIfDisabled := fallback |} |};
     FEATURE_FLAG_SERVICE := {| isEnabled := fun _ => reply |};
     ROUTER := {| parseUrl := url |} |}.

Definition bare : Route :=
  {| path := Some "home"; data := None |}.

Definition misspelt : Route :=
  {| path := Some "labs";
     data := Some {[ "flag" := VString "xyz" ]} |}.

Definition numbered : Route :=
  {| path := None;
     data := Some {[ "flag" := VNumber (SafeInteger (-42) eq_refl) ]} |}.

Definition symbolic : Route :=
  {| path := Some "labs";
     data := Some {[ "flag" := VSymbol "beta" ]} |}.

Definition beta : Route :=
  {| path := Some "labs";
     data := Some {[ "flag" := VString "beta" ]} |}.

Definition beta_upgrade : Route :=
  {| path := Some "labs";
     data := Some (<[ "redirect" := VString "/upgrade" ]>
                     {[ "flag" := VString "beta" ]}) |}.

End Sample.

Example scenario_A :
  canMatchFeatureFlag (Sample.context true None (VBoolean true)) Sample.bare
  = ([Warned "Route home does not have a feature flag specified"],
     Returned (VBoolean false)).
Proof. vm_compute. reflexivity. Qed.

Example scenario_B :
  canMatchFeatureFlag (Sample.context true None (VBoolean true))
    Sample.misspelt
  = ([], Thrown "Route labs has an invalid feature flag: xyz").
Proof. vm_compute. reflexivity. Qed.

Example scenario_B_number :
  canMatchFeatureFlag (Sample.context true None (VBoolean true))
    Sample.numbered
  = ([], Thrown "Route undefined has an invalid feature flag: -42").
Proof. vm_compute. reflexivity. Qed.

Example scenario_B_symbol :
  canMatchFeatureFlag (Sample.context true None (VBoolean true))
    Sample.symbolic
  = ([], Thrown "Cannot convert a Symbol value to a string").
Proof. vm_compute. reflexivity. Qed.

Example scenario_C :
  canMatchFeatureFlag (Sample.context true None (VBoolean false))
    Sample.beta
  = ([AskedService (VString "beta")], Returned (VBoolean false)).
Proof. vm_compute. reflexivity. Qed.

Example scenario_D :
  canMatchFeatureFlag
    (Sample.context true None (VPromise (Fulfilled (VBoolean false))))
    Sample.beta_upgrade
  = ([AskedService (VString "beta"); ParsedUrl (VString "/upgrade")],
     Returned (VPromise (Fulfilled (VUrlTree {| canonical := "/upgrade" |})))).
Proof. vm_compute. reflexivity. Qed.

(** ** Strings *)

Lemma prefix_append (sub post : string) :
  String.prefix sub (sub +:+ post) = true.
Proof.
  induction sub as [|c sub IH]; simpl.
  - by destruct post.
  - destruct (Ascii.ascii_dec c c); [exact IH | congruence].
Qed.

Lemma includes_prefix (s sub : string) :
  String.prefix sub s = true → includes s sub = true.
Proof. destruct s; simpl; intros ->; reflexivity. Qed.

Lemma includes_here (sub post : string) :
  includes (sub +:+ post) sub = true.
Proof. apply includes_prefix, prefix_append. Qed.

Lemma includes_later (pre s sub : string) :
  includes s sub = true → includes (pre +:+ s) sub = true.
Proof.
  intros H. induction pre as [|c pre IH]; simpl; [exact H|].
  rewrite IH. apply orb_true_r.
Qed.



(** ** Traces *)

Lemma warnings_app (t u : list event) :
  warnings (t ++ u) = (warnings t ++ warnings u)%list.
Proof.
  induction t as [|[m|f|x] t IH]; simpl; congruence.
Qed.

(** [log_before_service] says what its name says: a trace passes exactly
    when it cannot be cut into a service call followed, later, by a
    warning. *)
Lemma log_before_service_spec (trace : list event) :
  log_before_service trace = true ↔
  ∀ before flag between message after,
    trace ≠ (before ++ AskedService flag :: between
                    ++ Warned message :: after)%list.
Proof.
  induction trace as [|e trace IH].
  - split; [|reflexivity].
    intros _ [|? ?] ? ? ? ? E; discriminate E.
  - split.
    + intros H before flag between message after E.
      destruct before as [|e' before]; simpl in E.
      * injection E as -> ->. simpl in H.
        rewrite warnings_app in H. simpl in H.
        destruct (warnings between); discriminate H.
      * injection E as -> ->.
        assert (log_before_service
                  (before ++ AskedService flag :: between
                     ++ Warned message :: after) = true) as H'.
        { destruct e'; simpl in H; try exact H.
          destruct (warnings _); [exact H | discriminate H]. }
        exact (proj1 IH H' _ _ _ _ _ eq_refl).
    + intros H.
      assert (log_before_service trace = true) as Hrest.
      { apply (proj2 IH). intros before flag between message after ->.
        exact (H (e :: before) flag between message after eq_refl). }
      destruct e as [m|f|x]; simpl; try exact Hrest.
      destruct (warnings trace) as [|m ms] eqn:W; [exact Hrest|].
      exfalso. clear IH Hrest.
      assert (∃ between after,
                 trace = (between ++ Warned m :: after)%list) as (b & a & ->).
      { clear H. revert m ms W.
        induction trace as [|e trace IH]; intros m ms W; [discriminate W|].
        destruct e as [m'|f'|x']; simpl in W.
        - injection W as -> _. by exists [], trace.
        - destruct (IH _ _ W) as (b & a & ->).
          by exists (AskedService f' :: b), a.
        - destruct (IH _ _ W) as (b & a & ->).
          by exists (ParsedUrl x' :: b), a. }
      exact (H [] f b m a eq_refl).
Qed.

(** ** The three branches of the guard *)

Lemma guard_without_flag (ctx : Context) (route : Route) :
  truthy (flag_of ctx route) = false →
  canMatchFeatureFlag ctx route
  = ((if isDevMode ctx && negb (validIfNone (routing (CONFIGURATION ctx)))
      then [Warned (missing_flag_message route)] else []),
     Returned (VBoolean (validIfNone (routing (CONFIGURATION ctx))))).
Proof.
  unfold flag_of, canMatchFeatureFlag. intros ->. simpl.
  by destruct (isDevMode ctx && _).
Qed.

Lemma guard_invalid_flag (ctx : Context) (route : Route) :
  truthy (flag_of ctx route) = true →
  isFeatureFlag ctx (flag_of ctx route) = false →
  canMatchFeatureFlag ctx route
  = ([], Thrown (invalid_flag_error route (flag_of ctx route))).
Proof.
  unfold flag_of, canMatchFeatureFlag, invalid_flag_error.
  intros -> ->. simpl.
  by destruct (template_string _).
Qed.

Lemma guard_valid_flag (ctx : Context) (route : Route) :
  truthy (flag_of ctx route) = true →
  isFeatureFlag ctx (flag_of ctx route) = true →
  canMatchFeatureFlag ctx route
  = (AskedService (flag_of ctx route)
       :: (if truthy (redirect_target ctx route)
           then [ParsedUrl (redirect_target ctx route)] else []),
     if truthy (redirect_target ctx route)
     then redirected (answer ctx route)
            (parseUrl (ROUTER ctx) (redirect_target ctx route))
     else Returned (answer ctx route)).
Proof.
  unfold canMatchFeatureFlag, redirect_target, answer, route_redirect,
    default_redirect, flag_of, js_or, redirected.
  intros -> ->. simpl.
  destruct (truthy (if truthy _ then _ else _)); simpl; [|reflexivity].
  by destruct (isEnabled _ _).
Qed.

(** ** Routes without a feature flag *)

(** C1: when the route's data holds no value, or a falsy one, under the
    configured feature-flag key, the guard returns
    [config.routing.validIfNone] itself (a boolean, not a promise or an
    observable of one) and the flag service is not called in that
    invocation. *)
Theorem no_flag_returns_validIfNone (ctx : Context) (route : Route) :
  truthy (flag_of ctx route) = false →
  result (canMatchFeatureFlag ctx route)
    = Returned (VBoolean (validIfNone (routing (CONFIGURATION ctx))))
  ∧ service_calls (events (canMatchFeatureFlag ctx route)) = [].
Proof.
  intros Hnone. rewrite (guard_without_flag _ _ Hnone).
  split; [reflexivity|].
  by destruct (isDevMode ctx && _).
Qed.

Lemma no_flag_returns_validIfNone_witness :
  truthy (flag_of (Sample.context true None (VBoolean true)) Sample.bare)
    = false
  ∧ result (canMatchFeatureFlag (Sample.context true None (VBoolean true))
              Sample.bare)
      = Returned (VBoolean false)
  ∧ service_calls
      (events (canMatchFeatureFlag
                 (Sample.context true None (VBoolean true)) Sample.bare))
      = [].
Proof.
  split; [reflexivity|].
  exact (no_flag_returns_validIfNone
           (Sample.context true None (VBoolean true)) Sample.bare eq_refl).
Defined.

(** C7: the warning is logged exactly when the build is a development
    build, the route has no (or a falsy) feature flag and [validIfNone] is
    false; a production build never logs it; and the decision of a
    development run equals the decision of the production run on the same
    route and configuration. *)
Theorem warning_only_in_dev_mode (ctx : Context) (route : Route) :
  warnings (events (canMatchFeatureFlag ctx route))
    = (if isDevMode ctx && negb (truthy (flag_of ctx route))
          && negb (validIfNone (routing (CONFIGURATION ctx)))
       then [missing_flag_message route] else [])
  ∧ (warnings (events (canMatchFeatureFlag ctx route)) ≠ [] ↔
       isDevMode ctx = true ∧ truthy (flag_of ctx route) = false
       ∧ validIfNone (routing (CONFIGURATION ctx)) = false)
  ∧ warnings (events (canMatchFeatureFlag (with_isDevMode false ctx) route))
      = []
  ∧ result (canMatchFeatureFlag (with_isDevMode true ctx) route)
      = result (canMatchFeatureFlag (with_isDevMode false ctx) route).
Proof.
  assert (warnings (events (canMatchFeatureFlag ctx route))
          = (if isDevMode ctx && negb (truthy (flag_of ctx route))
                && negb (validIfNone (routing (CONFIGURATION ctx)))
             then [missing_flag_message route] else [])) as Hlog.
  { destruct (truthy (flag_of ctx route)) eqn:Hflag.
    - rewrite andb_false_r. simpl.
      destruct (isFeatureFlag ctx (flag_of ctx route)) eqn:Hvalid.
      + rewrite (guard_valid_flag _ _ Hflag Hvalid). simpl.
        by destruct (truthy (redirect_target ctx route)).
      + by rewrite (guard_invalid_flag _ _ Hflag Hvalid).
    - rewrite (guard_without_flag _ _ Hflag), andb_true_r.
      by destruct (isDevMode ctx && _). }
  split; [exact Hlog|]. split; [|split].
  - rewrite Hlog.
    destruct (isDevMode ctx), (truthy (flag_of ctx route)),
      (validIfNone (routing (CONFIGURATION ctx))); simpl;
      (split;
        [ intros H; try (by exfalso; apply H); by repeat split
        | intros (? & ? & ?); congruence ]).
  - destruct (truthy (flag_of ctx route)) eqn:Hflag.
    + destruct (isFeatureFlag ctx (flag_of ctx route)) eqn:Hvalid.
      * rewrite (guard_valid_flag (with_isDevMode false ctx) _ Hflag Hvalid).
        simpl.
        by destruct (truthy (redirect_target (with_isDevMode false ctx) route)).
      * by rewrite
          (guard_invalid_flag (with_isDevMode false ctx) _ Hflag Hvalid).
    + by rewrite (guard_without_flag (with_isDevMode false ctx) _ Hflag).
  - destruct (truthy (flag_of ctx route)) eqn:Hflag.
    + destruct (isFeatureFlag ctx (flag_of ctx route)) eqn:Hvalid.
      * by rewrite
          (guard_valid_flag (with_isDevMode true ctx) _ Hflag Hvalid),
          (guard_valid_flag (with_isDevMode false ctx) _ Hflag Hvalid).
      * by rewrite
          (guard_invalid_flag (with_isDevMode true ctx) _ Hflag Hvalid),
          (guard_invalid_flag (with_isDevMode false ctx) _ Hflag Hvalid).
    + by rewrite (guard_without_flag (with_isDevMode true ctx) _ Hflag),
        (guard_without_flag (with_isDevMode false ctx) _ Hflag).
Qed.

(** C8: in every invocation a logged warning comes before any call of the
    flag service: the trace of the guard never has a service call that is
    followed by the warning. *)
Theorem log_precedes_service_call (ctx : Context) (route : Route) :
  log_before_service (events (canMatchFeatureFlag ctx route)) = true.
Proof.
  destruct (truthy (flag_of ctx route)) eqn:Hflag.
  - destruct (isFeatureFlag ctx (flag_of ctx route)) eqn:Hvalid.
    + rewrite (guard_valid_flag _ _ Hflag Hvalid). simpl.
      by destruct (truthy (redirect_target ctx route)).
    + by rewrite (guard_invalid_flag _ _ Hflag Hvalid).
  - rewrite (guard_without_flag _ _ Hflag).
    by destruct (isDevMode ctx && _).
Qed.

(** ** Routes with an invalid feature flag *)




(** ** Routes with a valid feature flag *)

Section ValidFlag.

Context (ctx : Context) (route : Route).
Hypothesis Hflag : truthy (flag_of ctx route) = true.
Hypothesis Hvalid : isFeatureFlag ctx (flag_of ctx route) = true.

Lemma result_with_redirect :
  truthy (redirect_target ctx route) = true →
  result (canMatchFeatureFlag ctx route)
  = redirected (answer ctx route)
      (parseUrl (ROUTER ctx) (redirect_target ctx route)).
Proof. intros H. by rewrite (guard_valid_flag _ _ Hflag Hvalid), H. Qed.

Lemma result_without_redirect :
  truthy (redirect_target ctx route) = false →
  result (canMatchFeatureFlag ctx route) = Returned (answer ctx route).
Proof. intros H. by rewrite (guard_valid_flag _ _ Hflag Hvalid), H. Qed.

(** What [isEnabled || redirectTo] delivers where the service delivers a
    boolean [b], in the same position and the same synchronicity
    class. *)
Lemma redirected_delivery (redirectTo : UrlTree) (i : nat) (b : bool) :
  delivery (answer ctx route) i = Some (VBoolean b) →
  ∃ decision,
    redirected (answer ctx route) redirectTo = Returned decision
    ∧ shape_of decision = shape_of (answer ctx route)
    ∧ delivery decision i
      = Some (if b then VBoolean true else VUrlTree redirectTo).
Proof.
  unfold redirected.
  destruct (answer ctx route) as [| |b'|n| |s|u|p|o|text|sym]; simpl;
    intros Hd;
    try (destruct i; simplify_eq; fail).
  - destruct i; simplify_eq. exists (js_or (VBoolean b) (VUrlTree redirectTo)).
    by destruct b.
  - destruct p as [|r|r], i; simplify_eq.
    exists (VPromise (promise_then (Fulfilled (VBoolean b))
                        (λ r, js_or r (VUrlTree redirectTo)))).
    by destruct b.
  - exists (VObservable
              (observable_map o (λ r, js_or r (VUrlTree redirectTo)))).
    repeat split. simpl. rewrite list_lookup_fmap, Hd. by destruct b.
Qed.

(** C4: with a valid flag and no truthy redirect value, neither under the
    route's redirect key nor in the configuration, the guard returns the
    very value that [isEnabled] returned, whatever it is. *)
Theorem no_redirect_returns_answer :
  truthy (route_redirect ctx route) = false →
  truthy (default_redirect ctx) = false →
  result (canMatchFeatureFlag ctx route) = Returned (answer ctx route).
Proof.
  intros Hroute Hdefault. apply result_without_redirect.
  unfold redirect_target. by rewrite Hroute.
Qed.

(** C3, as the code has it: an answer of the flag service that is not a
    boolean, a promise or an observable makes the guard throw the
    unhandled-return-type error when a redirect target is configured;
    when none is configured the answer is returned as it is. *)
Theorem unhandled_answer :
  handled (answer ctx route) = false →
  result (canMatchFeatureFlag ctx route)
  = if truthy (redirect_target ctx route)
    then Thrown unhandled_message
    else Returned (answer ctx route).
Proof.
  intros Hshape. destruct (truthy (redirect_target ctx route)) eqn:Htarget.
  - rewrite (result_with_redirect Htarget). unfold redirected.
    by destruct (answer ctx route).
  - exact (result_without_redirect Htarget).
Qed.

(** C5: with a valid flag and a redirect target configured, where the
    answer of [isEnabled] is, resolves to, or emits [false], the decision
    is, resolves to, or emits the [UrlTree] that [parseUrl] gives for the
    redirect target; the target is the route's own redirect value when
    that is truthy and the configured default otherwise. *)
Theorem disabled_flag_redirects (i : nat) :
  truthy (redirect_target ctx route) = true →
  delivery (answer ctx route) i = Some (VBoolean false) →
  ∃ decision,
    result (canMatchFeatureFlag ctx route) = Returned decision
    ∧ shape_of decision = shape_of (answer ctx route)
    ∧ delivery decision i
      = Some (VUrlTree
                (parseUrl (ROUTER ctx)
                   (if truthy (route_redirect ctx route)
                    then route_redirect ctx route
                    else default_redirect ctx))).
Proof.
  intros Htarget Hd. rewrite (result_with_redirect Htarget).
  exact (redirected_delivery _ _ _ Hd).
Qed.

(** C6: with a valid flag and a redirect target configured, where the
    answer of [isEnabled] is, resolves to, or emits [true], the decision
    is, resolves to, or emits the boolean [true]. *)
Theorem enabled_flag_allows (i : nat) :
  truthy (redirect_target ctx route) = true →
  delivery (answer ctx route) i = Some (VBoolean true) →
  ∃ decision,
    result (canMatchFeatureFlag ctx route) = Returned decision
    ∧ shape_of decision = shape_of (answer ctx route)
    ∧ delivery decision i = Some (VBoolean true).
Proof.
  intros Htarget Hd. rewrite (result_with_redirect Htarget).
  exact (redirected_delivery _ _ _ Hd).
Qed.

(** C9: with a valid flag and a redirect target configured, the guard
    calls [parseUrl] exactly once during the invocation, on that target,
    whatever [isEnabled] answers. *)
Theorem parseUrl_called_once :
  truthy (redirect_target ctx route) = true →
  parsed_targets (events (canMatchFeatureFlag ctx route))
  = [redirect_target ctx route].
Proof.
  intros Htarget. by rewrite (guard_valid_flag _ _ Hflag Hvalid), Htarget.
Qed.

End ValidFlag.

Lemma no_redirect_returns_answer_witness :
  truthy (flag_of
            (Sample.context false None
               (VObservable (Observable [VBoolean true] Completes)))
            Sample.beta) = true
  ∧ result (canMatchFeatureFlag
              (Sample.context false None
                 (VObservable (Observable [VBoolean true] Completes)))
              Sample.beta)
    = Returned (VObservable (Observable [VBoolean true] Completes)).
Proof.
  split; [reflexivity|].
  exact (no_redirect_returns_answer
           (Sample.context false None
              (VObservable (Observable [VBoolean true] Completes)))
           Sample.beta eq_refl eq_refl eq_refl eq_refl).
Defined.

(** C3, as the specification states it, fails: without a redirect target
    the guard hands an answer that is a string to the router as the
    decision and throws nothing. *)
Lemma unhandled_answer_returned_without_redirect :
  (truthy (flag_of (Sample.context false None (VString "yes")) Sample.beta)
     = true
   ∧ isFeatureFlag (Sample.context false None (VString "yes"))
       (flag_of (Sample.context false None (VString "yes")) Sample.beta)
     = true
   ∧ handled (answer (Sample.context false None (VString "yes"))
                Sample.beta) = false
   ∧ canMatchFeatureFlag (Sample.context false None (VString "yes"))
       Sample.beta
     = ([AskedService (VString "beta")], Returned (VString "yes")))
  ∧ ¬ (∀ ctx route,
         truthy (flag_of ctx route) = true →
         isFeatureFlag ctx (flag_of ctx route) = true →
         handled (answer ctx route) = false →
         ∃ message,
           result (canMatchFeatureFlag ctx route) = Thrown message).
Proof.
  split; [by vm_compute|].
  intros Hclaim.
  destruct (Hclaim (Sample.context false None (VString "yes")) Sample.beta
              eq_refl eq_refl eq_refl) as [message Hthrown].
  vm_compute in Hthrown. discriminate Hthrown.
Qed.

Lemma unhandled_answer_witness :
  handled (answer (Sample.context false (Some "/home") (VString "yes"))
             Sample.beta) = false
  ∧ result (canMatchFeatureFlag
              (Sample.context false (Some "/home") (VString "yes"))
              Sample.beta)
    = Thrown "Unhandled return type of `FeatureFlagService#isEnabled`".
Proof.
  split; [reflexivity|].
  exact (unhandled_answer
           (Sample.context false (Some "/home") (VString "yes"))
           Sample.beta eq_refl eq_refl eq_refl).
Defined.

Lemma disabled_flag_redirects_witness :
  delivery
    (answer (Sample.context false (Some "/home")
               (VPromise (Fulfilled (VBoolean false))))
       Sample.beta_upgrade) 0
    = Some (VBoolean false)
  ∧ ∃ decision,
      result (canMatchFeatureFlag
                (Sample.context false (Some "/home")
                   (VPromise (Fulfilled (VBoolean false))))
                Sample.beta_upgrade) = Returned decision
      ∧ shape_of decision = Deferred
      ∧ delivery decision 0
        = Some (VUrlTree {| canonical := "/upgrade" |}).
Proof.
  split; [reflexivity|].
  exact (disabled_flag_redirects
           (Sample.context false (Some "/home")
              (VPromise (Fulfilled (VBoolean false))))
           Sample.beta_upgrade eq_refl eq_refl 0%nat eq_refl eq_refl).
Defined.

Lemma enabled_flag_allows_witness :
  delivery
    (answer (Sample.context false (Some "/home")
               (VObservable (Observable [VBoolean true] Completes)))
       Sample.beta) 0
    = Some (VBoolean true)
  ∧ ∃ decision,
      result (canMatchFeatureFlag
                (Sample.context false (Some "/home")
                   (VObservable (Observable [VBoolean true] Completes)))
                Sample.beta) = Returned decision
      ∧ shape_of decision = Stream
      ∧ delivery decision 0 = Some (VBoolean true).
Proof.
  split; [reflexivity|].
  exact (enabled_flag_allows
           (Sample.context false (Some "/home")
              (VObservable (Observable [VBoolean true] Completes)))
           Sample.beta eq_refl eq_refl 0%nat eq_refl eq_refl).
Defined.

Lemma parseUrl_called_once_witness :
  truthy (redirect_target
            (Sample.context false (Some "/home")
               (VPromise (Fulfilled (VBoolean true))))
            Sample.beta) = true
  ∧ parsed_targets
      (events (canMatchFeatureFlag
                 (Sample.context false (Some "/home")
                    (VPromise (Fulfilled (VBoolean true))))
                 Sample.beta))
    = [VString "/home"].
Proof.
  split; [reflexivity|].
  exact (parseUrl_called_once
           (Sample.context false (Some "/home")
              (VPromise (Fulfilled (VBoolean true))))
           Sample.beta eq_refl eq_refl eq_refl).
Defined.

(** ** The role of [validIfNone] *)

(** C10: on a route whose feature-flag value is truthy, two runs that
    differ only in [config.routing.validIfNone] perform the same effects
    and end in the same decision or the same error. *)
Theorem validIfNone_only_without_flag
    (ctx : Context) (route : Route) (b1 b2 : bool) :
  truthy (flag_of ctx route) = true →
  canMatchFeatureFlag (with_validIfNone b1 ctx) route
  = canMatchFeatureFlag (with_validIfNone b2 ctx) route.
Proof.
  intros Hflag.
  destruct (isFeatureFlag ctx (flag_of ctx route)) eqn:Hvalid.
  - by rewrite (guard_valid_flag (with_validIfNone b1 ctx) _ Hflag Hvalid),
      (guard_valid_flag (with_validIfNone b2 ctx) _ Hflag Hvalid).
  - by rewrite (guard_invalid_flag (with_validIfNone b1 ctx) _ Hflag Hvalid),
      (guard_invalid_flag (with_validIfNone b2 ctx) _ Hflag Hvalid).
Qed.

Lemma validIfNone_only_without_flag_witness :
  truthy (flag_of (Sample.context true (Some "/home") (VBoolean false))
            Sample.beta) = true
  ∧ canMatchFeatureFlag
      (with_validIfNone true
         (Sample.context true (Some "/home") (VBoolean false)))
      Sample.beta
    = canMatchFeatureFlag
        (with_validIfNone false
           (Sample.context true (Some "/home") (VBoolean false)))
        Sample.beta.
Proof.
  split; [reflexivity|].
  exact (validIfNone_only_without_flag
           (Sample.context true (Some "/home") (VBoolean false))
           Sample.beta true false eq_refl).
Defined.

(** ** Further properties of the guard *)

Ltac guard_branches ctx route :=
  let Hflag := fresh "Hflag" in
  let Hvalid := fresh "Hvalid" in
  destruct (truthy (flag_of ctx route)) eqn:Hflag;
  [ destruct (isFeatureFlag ctx (flag_of ctx route)) eqn:Hvalid;
    [ rewrite (guard_valid_flag ctx route Hflag Hvalid)
    | rewrite (guard_invalid_flag ctx route Hflag Hvalid) ]
  | rewrite (guard_without_flag ctx route Hflag) ].

Lemma truthy_or_url (v : value) (u : UrlTree) :
  truthy (js_or v (VUrlTree u)) = true.
Proof. unfold js_or. by destruct (truthy v) eqn:E. Qed.

(** The flag service is asked exactly once, about the route's flag value,
    when that value is truthy and a feature flag; in every other
    invocation it is not asked at all. *)
Theorem service_asked_iff_valid_flag (ctx : Context) (route : Route) :
  service_calls (events (canMatchFeatureFlag ctx route))
  = if truthy (flag_of ctx route) && isFeatureFlag ctx (flag_of ctx route)
    then [flag_of ctx route] else [].
Proof.
  guard_branches ctx route; simpl.
  - by destruct (truthy (redirect_target ctx route)).
  - reflexivity.
  - by destruct (isDevMode ctx && _).
Qed.

(** [parseUrl] is called only on a route with a valid flag and a truthy
    redirect target, once and on that target; a route without a flag, with
    an invalid flag or without a redirect target never reaches the
    router. *)
Theorem parseUrl_called_iff_redirect (ctx : Context) (route : Route) :
  parsed_targets (events (canMatchFeatureFlag ctx route))
  = if truthy (flag_of ctx route) && isFeatureFlag ctx (flag_of ctx route)
       && truthy (redirect_target ctx route)
    then [redirect_target ctx route] else [].
Proof.
  guard_branches ctx route; simpl.
  - by destruct (truthy (redirect_target ctx route)).
  - reflexivity.
  - by destruct (isDevMode ctx && _).
Qed.

(** The effects of an invocation always come in one order: the warning,
    then the call of the flag service, then the call of [parseUrl]. *)
Theorem effects_in_order (ctx : Context) (route : Route) :
  events (canMatchFeatureFlag ctx route)
  = ((Warned <$> warnings (events (canMatchFeatureFlag ctx route)))
     ++ (AskedService
           <$> service_calls (events (canMatchFeatureFlag ctx route)))
     ++ (ParsedUrl
           <$> parsed_targets (events (canMatchFeatureFlag ctx route))))%list.
Proof.
  guard_branches ctx route; simpl.
  - by destruct (truthy (redirect_target ctx route)).
  - reflexivity.
  - by destruct (isDevMode ctx && _).
Qed.

(** The guard throws in two situations and no other: the flag value is
    truthy but not a feature flag, or the flag is valid, a redirect target
    is configured and the service's answer is neither a boolean, a promise
    nor an observable. *)
Theorem throws_iff (ctx : Context) (route : Route) :
  (∃ message, result (canMatchFeatureFlag ctx route) = Thrown message)
  ↔ truthy (flag_of ctx route) = true
    ∧ (isFeatureFlag ctx (flag_of ctx route) = false
       ∨ (truthy (redirect_target ctx route) = true
          ∧ handled (answer ctx route) = false)).
Proof.
  guard_branches ctx route; simpl.
  - destruct (truthy (redirect_target ctx route)).
    + unfold redirected, handled.
      destruct (answer ctx route); simpl;
        (split;
          [ intros [message E]; try discriminate E; auto
          | intros [_ [E|[_ E]]]; try discriminate E; eauto ]).
    + split.
      * intros [message E]. discriminate E.
      * intros [_ [E|[E _]]]; discriminate E.
  - split; eauto.
  - split.
    + intros [message E]. discriminate E.
    + intros [E _]. discriminate E.
Qed.

(** The warning names the route: every message the guard logs includes the
    route's path as the template literal prints it. *)
Theorem warning_names_route (ctx : Context) (route : Route) :
  forallb (λ message, includes message (path_text route))
    (warnings (events (canMatchFeatureFlag ctx route)))
  = true.
Proof.
  guard_branches ctx route; simpl.
  - by destruct (truthy (redirect_target ctx route)).
  - reflexivity.
  - destruct (isDevMode ctx && _); simpl; [|reflexivity].
    rewrite andb_true_r. unfold missing_flag_message.
    apply (includes_later "Route ").
    exact (includes_here (path_text route)
             " does not have a feature flag specified").
Qed.

(** On a valid flag every decision the guard returns has the synchronicity
    class of the service's answer: a promise for a promise, an observable
    for an observable, an immediate value otherwise. *)
Theorem decision_keeps_shape (ctx : Context) (route : Route) (d : value) :
  truthy (flag_of ctx route) = true →
  isFeatureFlag ctx (flag_of ctx route) = true →
  result (canMatchFeatureFlag ctx route) = Returned d →
  shape_of d = shape_of (answer ctx route).
Proof.
  intros Hflag Hvalid. rewrite (guard_valid_flag _ _ Hflag Hvalid). simpl.
  destruct (truthy (redirect_target ctx route)); [|naive_solver].
  unfold redirected.
  destruct (answer ctx route) as [| |b|n| |s|u|p|o|text|sym]; intros ?;
    simplify_eq; try reflexivity.
  by destruct b.
Qed.

(** With a redirect target configured the substitution goes by truthiness,
    not by the boolean [false]: whatever value the answer is, resolves to
    or emits, the decision delivers that value when it is truthy and the
    parsed redirect target when it is falsy ([undefined], [null], [0],
    [NaN] or the empty string as much as [false]). *)
Theorem falsy_delivery_redirects
    (ctx : Context) (route : Route) (i : nat) (v : value) :
  truthy (flag_of ctx route) = true →
  isFeatureFlag ctx (flag_of ctx route) = true →
  truthy (redirect_target ctx route) = true →
  handled (answer ctx route) = true →
  fulfilled_with_promise (answer ctx route) = false →
  delivery (answer ctx route) i = Some v →
  ∃ d,
    result (canMatchFeatureFlag ctx route) = Returned d
    ∧ delivery d i
      = Some (if truthy v then v
              else VUrlTree
                     (parseUrl (ROUTER ctx) (redirect_target ctx route))).
Proof.
  intros Hflag Hvalid Htarget.
  rewrite (guard_valid_flag _ _ Hflag Hvalid), Htarget. simpl.
  unfold redirected, handled.
  destruct (answer ctx route) as [| |b|n| |s|u|p|o|text|sym]; simpl;
    intros Hh Hp Hd; try discriminate Hh.
  - destruct i; simplify_eq. eexists. split; [reflexivity|].
    by destruct b.
  - destruct p as [|r|r], i; simplify_eq.
    eexists. split; [reflexivity|]. simpl. unfold js_or.
    destruct (truthy v) eqn:Hv; [|reflexivity].
    by destruct v.
  - eexists. split; [reflexivity|]. simpl.
    by rewrite list_lookup_fmap, Hd.
Qed.

(** With a redirect target configured the guard never hands a falsy value
    to the router: whatever the decision is, resolves to or emits is
    truthy, so the navigation is allowed or redirected but not plainly
    denied. *)
Theorem redirect_never_denies
    (ctx : Context) (route : Route) (d : value) (i : nat) (w : value) :
  truthy (flag_of ctx route) = true →
  isFeatureFlag ctx (flag_of ctx route) = true →
  truthy (redirect_target ctx route) = true →
  fulfilled_with_promise (answer ctx route) = false →
  result (canMatchFeatureFlag ctx route) = Returned d →
  delivery d i = Some w →
  truthy w = true.
Proof.
  intros Hflag Hvalid Htarget.
  rewrite (guard_valid_flag _ _ Hflag Hvalid), Htarget. simpl.
  unfold redirected.
  destruct (answer ctx route) as [| |b|n| |s|u|p|o|text|sym]; simpl;
    intros Hp Hd Hw; simplify_eq.
  - destruct b, i; by simplify_eq/=.
  - destruct p as [|r|r]; simpl in Hw.
    + destruct i; discriminate Hw.
    + pose proof (truthy_or_url r
                    (parseUrl (ROUTER ctx) (redirect_target ctx route)))
        as Htruthy.
      unfold js_or in *. destruct (truthy r) eqn:Hr.
      * destruct r; simplify_eq/=; destruct i; by simplify_eq/=.
      * destruct i; by simplify_eq/=.
    + destruct i; discriminate Hw.
  - simpl in Hw. rewrite list_lookup_fmap in Hw.
    destruct (emissions o !! i) as [v|]; simplify_eq/=.
    apply truthy_or_url.
Qed.

(** A promise that has not been fulfilled goes through untouched when a
    redirect target is configured: a pending answer stays pending and a
    rejected answer stays rejected with its reason, so a failure of the
    flag service is neither turned into a redirect nor into a decision. *)
Theorem unfulfilled_promise_kept (ctx : Context) (route : Route) :
  truthy (flag_of ctx route) = true →
  isFeatureFlag ctx (flag_of ctx route) = true →
  truthy (redirect_target ctx route) = true →
  is_promise (answer ctx route) = true →
  delivery (answer ctx route) 0 = None →
  result (canMatchFeatureFlag ctx route) = Returned (answer ctx route).
Proof.
  intros Hflag Hvalid Htarget.
  rewrite (guard_valid_flag _ _ Hflag Hvalid), Htarget. simpl.
  unfold redirected.
  destruct (answer ctx route) as [| |b|n| |s|u|p|o|text|sym]; simpl;
    intros Hp Hd; try discriminate Hp.
  by destruct p.
Qed.

(** An observable answer is mapped emission by emission when a redirect
    target is configured: the decision is an observable with as many
    emissions as the answer and the same ending (completion, error with
    its reason, or neither). *)
Theorem observable_answer_mapped
    (ctx : Context) (route : Route) (o : observable value) :
  truthy (flag_of ctx route) = true →
  isFeatureFlag ctx (flag_of ctx route) = true →
  truthy (redirect_target ctx route) = true →
  answer ctx route = VObservable o →
  ∃ o',
    result (canMatchFeatureFlag ctx route) = Returned (VObservable o')
    ∧ length (emissions o') = length (emissions o)
    ∧ ending o' = ending o.
Proof.
  intros Hflag Hvalid Htarget Ho.
  rewrite (guard_valid_flag _ _ Hflag Hvalid), Htarget, Ho. simpl.
  eexists. split; [reflexivity|]. simpl.
  by rewrite length_fmap.
Qed.

(** The route's path only ever shows in messages: two routes with the same
    data get the same decision, whatever their paths. *)
Theorem decision_ignores_path
    (ctx : Context) (r1 r2 : Route) (d : value) :
  data r1 = data r2 →
  result (canMatchFeatureFlag ctx r1) = Returned d →
  result (canMatchFeatureFlag ctx r2) = Returned d.
Proof.
  intros Hdata.
  assert (∀ key, data_get r1 key = data_get r2 key) as Hget.
  { intros key. unfold data_get. by rewrite Hdata. }
  assert (flag_of ctx r1 = flag_of ctx r2) as Hf by apply Hget.
  assert (redirect_target ctx r1 = redirect_target ctx r2) as Ht.
  { unfold redirect_target, route_redirect. by rewrite Hget. }
  assert (answer ctx r1 = answer ctx r2) as Ha.
  { unfold answer. by rewrite Hf. }
  destruct (truthy (flag_of ctx r1)) eqn:Hflag.
  - destruct (isFeatureFlag ctx (flag_of ctx r1)) eqn:Hvalid.
    + rewrite (guard_valid_flag ctx r1 Hflag Hvalid).
      rewrite Hf in Hflag, Hvalid.
      rewrite (guard_valid_flag ctx r2 Hflag Hvalid).
      by rewrite Ht, Ha.
    + by rewrite (guard_invalid_flag ctx r1 Hflag Hvalid).
  - rewrite (guard_without_flag ctx r1 Hflag).
    rewrite Hf in Hflag.
    by rewrite (guard_without_flag ctx r2 Hflag).
Qed.

Lemma decision_keeps_shape_witness :
  result (canMatchFeatureFlag
            (Sample.context false (Some "/home")
               (VPromise (Fulfilled (VBoolean false))))
            Sample.beta)
    = Returned (VPromise (Fulfilled (VUrlTree {| canonical := "/home" |})))
  ∧ shape_of (VPromise (Fulfilled (VUrlTree {| canonical := "/home" |})))
    = Deferred.
Proof.
  split; [reflexivity|].
  exact (decision_keeps_shape
           (Sample.context false (Some "/home")
              (VPromise (Fulfilled (VBoolean false))))
           Sample.beta
           (VPromise (Fulfilled (VUrlTree {| canonical := "/home" |})))
           eq_refl eq_refl eq_refl).
Defined.

Lemma falsy_delivery_redirects_witness :
  handled (answer (Sample.context false None
                     (VPromise (Fulfilled VUndefined)))
             Sample.beta_upgrade) = true
  ∧ delivery (answer (Sample.context false None
                        (VPromise (Fulfilled VUndefined)))
                Sample.beta_upgrade) 0
    = Some VUndefined
  ∧ ∃ d,
      result (canMatchFeatureFlag
                (Sample.context false None
                   (VPromise (Fulfilled VUndefined)))
                Sample.beta_upgrade) = Returned d
      ∧ delivery d 0 = Some (VUrlTree {| canonical := "/upgrade" |}).
Proof.
  split; [reflexivity|]. split; [reflexivity|].
  exact (falsy_delivery_redirects
           (Sample.context false None (VPromise (Fulfilled VUndefined)))
           Sample.beta_upgrade 0%nat VUndefined
           eq_refl eq_refl eq_refl eq_refl eq_refl eq_refl).
Defined.

Lemma redirect_never_denies_witness :
  result (canMatchFeatureFlag
            (Sample.context false (Some "/home")
               (VObservable
                  (Observable [VBoolean false; VBoolean true] Completes)))
            Sample.beta)
    = Returned
        (VObservable
           (Observable [VUrlTree {| canonical := "/home" |}; VBoolean true]
              Completes))
  ∧ truthy (VUrlTree {| canonical := "/home" |}) = true.
Proof.
  split; [reflexivity|].
  exact (redirect_never_denies
           (Sample.context false (Some "/home")
              (VObservable
                 (Observable [VBoolean false; VBoolean true] Completes)))
           Sample.beta
           (VObservable
              (Observable [VUrlTree {| canonical := "/home" |}; VBoolean true]
                 Completes))
           0%nat (VUrlTree {| canonical := "/home" |})
           eq_refl eq_refl eq_refl eq_refl eq_refl eq_refl).
Defined.

Lemma unfulfilled_promise_kept_witness :
  delivery (answer (Sample.context false (Some "/home")
                      (VPromise (Rejected (VString "offline"))))
              Sample.beta) 0 = None
  ∧ result (canMatchFeatureFlag
              (Sample.context false (Some "/home")
                 (VPromise (Rejected (VString "offline"))))
              Sample.beta)
    = Returned (VPromise (Rejected (VString "offline"))).
Proof.
  split; [reflexivity|].
  exact (unfulfilled_promise_kept
           (Sample.context false (Some "/home")
              (VPromise (Rejected (VString "offline"))))
           Sample.beta eq_refl eq_refl eq_refl eq_refl eq_refl).
Defined.

Lemma observable_answer_mapped_witness :
  answer (Sample.context false (Some "/home")
            (VObservable
               (Observable [VBoolean false; VBoolean true]
                  (Errors (VString "down")))))
    Sample.beta
    = VObservable
        (Observable [VBoolean false; VBoolean true]
           (Errors (VString "down")))
  ∧ ∃ o',
      result (canMatchFeatureFlag
                (Sample.context false (Some "/home")
                   (VObservable
                      (Observable [VBoolean false; VBoolean true]
                         (Errors (VString "down")))))
                Sample.beta) = Returned (VObservable o')
      ∧ length (emissions o') = 2%nat
      ∧ ending o' = Errors (VString "down").
Proof.
  split; [reflexivity|].
  exact (observable_answer_mapped
           (Sample.context false (Some "/home")
              (VObservable
                 (Observable [VBoolean false; VBoolean true]
                    (Errors (VString "down")))))
           Sample.beta
           (Observable [VBoolean false; VBoolean true]
              (Errors (VString "down")))
           eq_refl eq_refl eq_refl eq_refl).
Defined.

Lemma decision_ignores_path_witness :
  data Sample.beta = data {| path := None; data := data Sample.beta |}
  ∧ result (canMatchFeatureFlag
              (Sample.context true None (VBoolean true))
              {| path := None; data := data Sample.beta |})
    = Returned (VBoolean true).
Proof.
  split; [reflexivity|].
  exact (decision_ignores_path
           (Sample.context true None (VBoolean true))
           Sample.beta {| path := None; data := data Sample.beta |}
           (VBoolean true) eq_refl eq_refl).
Defined.
